(** * DataNexus client: instruction encoding layer

    A shallow embedding of the instruction builders of the DataNexus
    JavaScript client, in its three revisions:

    - [SrcInstruction]    : src/js/src/instruction.ts
    - [StubInstruction]   : src/js/instruction.ts, first document (lines 1-85)
    - [ConcatInstruction] : src/js/instruction.ts, second document (lines 86-215)

    Every builder is an [async] arrow function; its result is modelled by
    the way the returned promise settles. The three modules above give
    the contents of what a builder returns; [SrcAllocating],
    [StubAllocating] and [ConcatAllocating] give the same builders with
    the allocation of their objects in a heap made explicit. *)

From Stdlib Require Import ZArith List String Bool Lia.
From Stdlib Require Import Init.Byte Strings.Byte.
Import ListNotations.

Local Open Scope Z_scope.
Local Open Scope string_scope.

(** ** The JavaScript run-time values the builders use *)

Module Js.

(** Errors the builders can raise. *)
Inductive JsError : Type :=
| ReferenceError (identifier : string)
    (* the identifier is bound in no enclosing scope *)
| TypeError_not_iterable (operand : string).
    (* the operand of a spread has no iterator *)

(** Evaluation of an expression or of a function body: a value, or a
    thrown error. *)
Inductive Completion (A : Type) : Type :=
| Normal (value : A)
| Throw (error : JsError).

Arguments Normal {A} value.
Arguments Throw {A} error.

Definition bind {A B : Type} (c : Completion A) (k : A -> Completion B)
  : Completion B :=
  match c with
  | Normal a => k a
  | Throw e => Throw e
  end.

(** A function body completes with the value of its [return] statement,
    or with nothing when control reaches its end. *)
Definition return_ {A : Type} (v : A) : Completion (option A) :=
  Normal (Some v).
Definition end_of_body {A : Type} : Completion (option A) := Normal None.

(** How the promise returned by an [async] function settles: fulfilled
    with the value of a [return], fulfilled with [undefined] when the body
    reaches its end, or rejected with the error the body threw. *)
Inductive Outcome (A : Type) : Type :=
| Fulfilled (value : A)
| FulfilledUndefined
| Rejected (error : JsError).

Arguments Fulfilled {A} value.
Arguments FulfilledUndefined {A}.
Arguments Rejected {A} error.

Definition async {A : Type} (body : Completion (option A)) : Outcome A :=
  match body with
  | Normal (Some v) => Fulfilled v
  | Normal None => FulfilledUndefined
  | Throw e => Rejected e
  end.

(** [number]: only integer values are represented; no builder performs
    arithmetic on a number. *)
Definition number : Type := Z.

(** [Uint8Array] and [Buffer]: sequences of octets. *)
Definition Uint8Array : Type := list byte.
Definition Buffer : Type := list byte.

(** The number read from an element of a [Uint8Array]. *)
Definition byte_value (b : byte) : number := Z.of_N (Byte.to_N b).

(** ToUint8: the conversion a typed array applies to a number stored in
    it, reduction modulo 2^8. *)
Definition ToUint8 (x : number) : byte :=
  match Byte.of_N (Z.to_N (x mod 256)) with
  | Some b => b
  | None => x00
  end.

(** [Uint8Array.of(...items)]. *)
Definition Uint8Array_of (items : list number) : Uint8Array :=
  map ToUint8 items.

(** [Buffer.from(array)] copies the octets of a [Uint8Array]. *)
Definition Buffer_from (a : Uint8Array) : Buffer := a.

(** [Buffer.concat(list)]. *)
Definition Buffer_concat (buffers : list Buffer) : Buffer :=
  List.concat buffers.

(** Spread [...a] of a [Uint8Array] in an argument list: its iterator
    yields the elements as numbers. *)
Definition spread_Uint8Array (a : Uint8Array)
  : Completion (list number) :=
  Normal (map byte_value a).

(** Spread [...n] of a [number]: a number has no [Symbol.iterator]
    method, so obtaining the iterator throws. *)
Definition spread_number (operand : string) (n : number)
  : Completion (list number) :=
  Throw (TypeError_not_iterable operand).

(** Evaluation of an identifier reference against the bindings in scope;
    an unresolvable reference throws. *)
Fixpoint identifier {A : Type} (scope : list (string * A)) (name : string)
  : Completion A :=
  match scope with
  | [] => Throw (ReferenceError name)
  | (n, v) :: rest =>
      if String.eqb n name then Normal v else identifier rest name
  end.

End Js.

Import Js.

Declare Scope js_scope.
Delimit Scope js_scope with js.
Notation "x <- c ;; k" := (bind c (fun x => k))
  (at level 61, c at next level, right associativity) : js_scope.
Local Open Scope js_scope.

(** ** The types of @solana/web3.js the builders construct *)

Module Web3.

(** An account identifier: an opaque key; the builders never look
    inside. *)
Record PublicKey : Type := { toBytes : list byte }.

(** [new PublicKey(value)] applied to a key. *)
Definition new_PublicKey (value : PublicKey) : PublicKey := value.

Record AccountMeta : Type :=
  { pubkey : PublicKey; isSigner : bool; isWritable : bool }.

(** What the [data] field of an instruction holds once the constructor
    has stored the option it was given: a buffer, or (when the caller
    passed an array) an array of buffers. *)
Inductive InstructionData : Type :=
| Bytes (b : Buffer)
| BufferArray (bs : list Buffer).

Record TransactionInstruction : Type :=
  { programId : PublicKey;
    keys : list AccountMeta;
    data : InstructionData }.

(** [new TransactionInstruction({programId, keys, data})]: the
    constructor stores the three options as they are. *)
Definition new_TransactionInstruction
  (programId : PublicKey) (keys : list AccountMeta) (data : InstructionData)
  : TransactionInstruction :=
  {| programId := programId; keys := keys; data := data |}.

End Web3.

Import Web3.

(** [enum AccountType { OWNER = 0, ACCESS = 1 }] *)
Inductive AccountType : Type := OWNER | ACCESS.

Definition AccountType_value (t : AccountType) : number :=
  match t with
  | OWNER => 0
  | ACCESS => 1
  end.

(** Modelled from the spec: the type [Params] is declared nowhere in the
    repository; the spec describes it as an opaque, pre-serialized byte
    sequence supplied by the caller. *)
Definition Params : Type := list byte.

(** Modelled from the spec: the class [Numberu64] is declared nowhere in
    the repository; the spec describes an amount as an unsigned 64-bit
    quantity whose encoding is 8 bytes, little-endian. Only its value and
    its [toBuffer] method are used. *)
Definition Numberu64 : Type := Z.

Fixpoint little_endian (width : nat) (v : Z) : Buffer :=
  match width with
  | O => []
  | S w => ToUint8 v :: little_endian w (v / 256)
  end.

Definition Numberu64_toBuffer (amount : Numberu64) : Buffer :=
  little_endian 8 amount.

(** ** src/js/src/instruction.ts *)

Module SrcInstruction.
Section Program.

(** The program identifier constant, read by every builder and declared
    outside the file. *)
Variable DATANEXUS_PROGRAM_ID : PublicKey.

Definition initUserAccountIx
  (payer authority userAccount systemProgram : PublicKey)
  (accountType : AccountType) : Outcome TransactionInstruction :=
  async (
    let dataNexusProgramId := new_PublicKey DATANEXUS_PROGRAM_ID in
    let initUserAccountIx :=
      new_TransactionInstruction dataNexusProgramId
        [ {| pubkey := payer; isSigner := true; isWritable := true |};
          {| pubkey := authority; isSigner := false; isWritable := true |};
          {| pubkey := userAccount; isSigner := false; isWritable := true |};
          {| pubkey := systemProgram; isSigner := false; isWritable := false |} ]
        (Bytes (Buffer_from
                  (Uint8Array_of [0; AccountType_value accountType]))) in
    return_ initUserAccountIx).

Definition initDataAccountIx
  (authority ownerAccount datasetAccount systemProgram : PublicKey)
  (hash : Uint8Array) : Outcome TransactionInstruction :=
  async (
    let dataNexusProgramId := new_PublicKey DATANEXUS_PROGRAM_ID in
    hash_items <- spread_Uint8Array hash ;;
    let initDataAccountIx :=
      new_TransactionInstruction dataNexusProgramId
        [ {| pubkey := authority; isSigner := true; isWritable := true |};
          {| pubkey := ownerAccount; isSigner := false; isWritable := true |};
          {| pubkey := datasetAccount; isSigner := false; isWritable := true |};
          {| pubkey := systemProgram; isSigner := false; isWritable := false |} ]
        (Bytes (Buffer_from (Uint8Array_of (1 :: hash_items)))) in
    return_ initDataAccountIx).

(** The second parameter is spelled [dataSetAccount]; the key list refers
    to [datasetAccount], which neither the parameter list nor the file
    binds. [scope] lists the bindings of type [PublicKey] that are in
    scope. *)
Definition setDataParams
  (authority dataSetAccount : PublicKey)
  (hash : Uint8Array) (params : Params) : Outcome TransactionInstruction :=
  async (
    let scope :=
      [ ("authority", authority); ("dataSetAccount", dataSetAccount);
        ("DATANEXUS_PROGRAM_ID", DATANEXUS_PROGRAM_ID) ] in
    let dataNexusProgramId := new_PublicKey DATANEXUS_PROGRAM_ID in
    key0 <- identifier scope "authority" ;;
    key1 <- identifier scope "datasetAccount" ;;
    hash_items <- spread_Uint8Array hash ;;
    let setDataParamsIx :=
      new_TransactionInstruction dataNexusProgramId
        [ {| pubkey := key0; isSigner := true; isWritable := true |};
          {| pubkey := key1; isSigner := false; isWritable := true |} ]
        (Bytes (Buffer_from (Uint8Array_of (2 :: hash_items)))) in
    return_ setDataParamsIx).

Definition purchaseAccess
  (userAuthority userAccessAccount userTokenAccount ownerAuthority
     ownerTokenAccount datasetAccount tokenProgram : PublicKey)
  (hash : Uint8Array) (amount : number) : Outcome TransactionInstruction :=
  async (
    let dataNexusProgramId := new_PublicKey DATANEXUS_PROGRAM_ID in
    hash_items <- spread_Uint8Array hash ;;
    amount_items <- spread_number "amount" amount ;;
    let purchaseAccessIx :=
      new_TransactionInstruction dataNexusProgramId
        [ {| pubkey := userAuthority; isSigner := true; isWritable := true |};
          {| pubkey := userAccessAccount; isSigner := false; isWritable := true |};
          {| pubkey := userTokenAccount; isSigner := false; isWritable := true |};
          {| pubkey := ownerAuthority; isSigner := false; isWritable := true |};
          {| pubkey := ownerTokenAccount; isSigner := false; isWritable := true |};
          {| pubkey := datasetAccount; isSigner := false; isWritable := false |};
          {| pubkey := tokenProgram; isSigner := false; isWritable := false |} ]
        (Bytes (Buffer_from
                  (Uint8Array_of (3 :: hash_items ++ amount_items)))) in
    return_ purchaseAccessIx).

Definition shareAccess
  (userAuthority userAccessAccount recipientAuthority
     recipientAccessAccount datasetAccount : PublicKey)
  (hash : Uint8Array) : Outcome TransactionInstruction :=
  async (
    let dataNexusProgramId := new_PublicKey DATANEXUS_PROGRAM_ID in
    hash_items <- spread_Uint8Array hash ;;
    let shareAccessIx :=
      new_TransactionInstruction dataNexusProgramId
        [ {| pubkey := userAuthority; isSigner := true; isWritable := true |};
          {| pubkey := userAccessAccount; isSigner := false; isWritable := true |};
          {| pubkey := recipientAuthority; isSigner := false; isWritable := true |};
          {| pubkey := recipientAccessAccount; isSigner := false; isWritable := true |};
          {| pubkey := datasetAccount; isSigner := false; isWritable := false |} ]
        (Bytes (Buffer_from (Uint8Array_of (4 :: hash_items)))) in
    return_ shareAccessIx).

End Program.
End SrcInstruction.

(** ** src/js/instruction.ts, first document (lines 1-85) *)

Module StubInstruction.
Section Program.

Variable DATANEXUS_PROGRAM_ID : PublicKey.

Definition initUserAccountIx
  (payer authority userAccount systemProgram : PublicKey)
  (accountType : AccountType) : Outcome TransactionInstruction :=
  async (
    let dataNexusProgramId := new_PublicKey DATANEXUS_PROGRAM_ID in
    let initUserAccountIx :=
      new_TransactionInstruction dataNexusProgramId
        [ {| pubkey := payer; isSigner := true; isWritable := true |};
          {| pubkey := authority; isSigner := false; isWritable := true |};
          {| pubkey := userAccount; isSigner := false; isWritable := true |};
          {| pubkey := systemProgram; isSigner := false; isWritable := false |} ]
        (Bytes (Buffer_from
                  (Uint8Array_of [0; AccountType_value accountType]))) in
    return_ initUserAccountIx).

Definition initDataAccountIx
  (authority ownerAccount datasetAccount systemProgram : PublicKey)
  (hash : Uint8Array) : Outcome TransactionInstruction :=
  async (
    let dataNexusProgramId := new_PublicKey DATANEXUS_PROGRAM_ID in
    hash_items <- spread_Uint8Array hash ;;
    let initDataAccountIx :=
      new_TransactionInstruction dataNexusProgramId
        [ {| pubkey := authority; isSigner := true; isWritable := true |};
          {| pubkey := ownerAccount; isSigner := false; isWritable := true |};
          {| pubkey := datasetAccount; isSigner := false; isWritable := true |};
          {| pubkey := systemProgram; isSigner := false; isWritable := false |} ]
        (Bytes (Buffer_from (Uint8Array_of (1 :: hash_items)))) in
    return_ initDataAccountIx).

(** The remaining three builders have an empty body. *)
Definition setDataParams
  (authority dataSetAccount : PublicKey)
  (hash : Uint8Array) (params : Params) : Outcome TransactionInstruction :=
  async end_of_body.

Definition purchaseAccess
  (userAuthority userAccessAccount userTokenAccount ownerAuthority
     ownerTokenAccount datasetAccount tokenProgram : PublicKey)
  (hash : Uint8Array) (amount : number) : Outcome TransactionInstruction :=
  async end_of_body.

Definition shareAccess
  (userAuthority userAccessAccount recipientAuthority
     recipientAccessAccount datasetAccount : PublicKey)
  (hash : Uint8Array) : Outcome TransactionInstruction :=
  async end_of_body.

End Program.
End StubInstruction.

(** ** src/js/instruction.ts, second document (lines 86-215)

    Here a hash is an array of buffers, joined when the payload is
    encoded. *)

Module ConcatInstruction.
Section Program.

Variable DATANEXUS_PROGRAM_ID : PublicKey.

Definition initUserAccountIx
  (payer authority userAccount systemProgram : PublicKey)
  (accountType : AccountType) : Outcome TransactionInstruction :=
  async (
    let dataNexusProgramId := new_PublicKey DATANEXUS_PROGRAM_ID in
    let initUserAccountIx :=
      new_TransactionInstruction dataNexusProgramId
        [ {| pubkey := payer; isSigner := true; isWritable := true |};
          {| pubkey := authority; isSigner := false; isWritable := true |};
          {| pubkey := userAccount; isSigner := false; isWritable := true |};
          {| pubkey := systemProgram; isSigner := false; isWritable := false |} ]
        (Bytes (Buffer_from
                  (Uint8Array_of [0; AccountType_value accountType]))) in
    return_ initUserAccountIx).

Definition initDataAccountIx
  (authority ownerAccount datasetAccount systemProgram : PublicKey)
  (hash : list Buffer) : Outcome TransactionInstruction :=
  async (
    let dataNexusProgramId := new_PublicKey DATANEXUS_PROGRAM_ID in
    let buffers :=
      [ Buffer_from (Uint8Array_of [1]); Buffer_concat hash ] in
    let initDataAccountIx :=
      new_TransactionInstruction dataNexusProgramId
        [ {| pubkey := authority; isSigner := true; isWritable := true |};
          {| pubkey := ownerAccount; isSigner := false; isWritable := true |};
          {| pubkey := datasetAccount; isSigner := false; isWritable := true |};
          {| pubkey := systemProgram; isSigner := false; isWritable := false |} ]
        (Bytes (Buffer_concat buffers)) in
    return_ initDataAccountIx).

Definition setDataParams
  (authority datasetAccount : PublicKey)
  (hash : list Buffer) (params : Params) : Outcome TransactionInstruction :=
  async (
    let dataNexusProgramId := new_PublicKey DATANEXUS_PROGRAM_ID in
    let buffers :=
      [ Buffer_from (Uint8Array_of [2]); Buffer_concat hash ] in
    let setDataParamsIx :=
      new_TransactionInstruction dataNexusProgramId
        [ {| pubkey := authority; isSigner := true; isWritable := true |};
          {| pubkey := datasetAccount; isSigner := false; isWritable := true |} ]
        (Bytes (Buffer_concat buffers)) in
    return_ setDataParamsIx).

(** [data] receives the array [buffers] itself, not its concatenation. *)
Definition purchaseAccess
  (userAuthority userAccessAccount userTokenAccount ownerAuthority
     ownerTokenAccount datasetAccount tokenProgram : PublicKey)
  (hash : list Buffer) (amount : Numberu64)
  : Outcome TransactionInstruction :=
  async (
    let dataNexusProgramId := new_PublicKey DATANEXUS_PROGRAM_ID in
    let buffers :=
      [ Buffer_from (Uint8Array_of [3]); Buffer_concat hash;
        Numberu64_toBuffer amount ] in
    let purchaseAccessIx :=
      new_TransactionInstruction dataNexusProgramId
        [ {| pubkey := userAuthority; isSigner := true; isWritable := true |};
          {| pubkey := userAccessAccount; isSigner := false; isWritable := true |};
          {| pubkey := userTokenAccount; isSigner := false; isWritable := true |};
          {| pubkey := ownerAuthority; isSigner := false; isWritable := true |};
          {| pubkey := ownerTokenAccount; isSigner := false; isWritable := true |};
          {| pubkey := datasetAccount; isSigner := false; isWritable := false |};
          {| pubkey := tokenProgram; isSigner := false; isWritable := false |} ]
        (BufferArray buffers) in
    return_ purchaseAccessIx).

Definition shareAccess
  (userAuthority userAccessAccount recipientAuthority
     recipientAccessAccount datasetAccount : PublicKey)
  (hash : list Buffer) : Outcome TransactionInstruction :=
  async (
    let dataNexusProgramId := new_PublicKey DATANEXUS_PROGRAM_ID in
    let buffers :=
      [ Buffer_from (Uint8Array_of [4]); Buffer_concat hash ] in
    let shareAccessIx :=
      new_TransactionInstruction dataNexusProgramId
        [ {| pubkey := userAuthority; isSigner := true; isWritable := true |};
          {| pubkey := userAccessAccount; isSigner := false; isWritable := true |};
          {| pubkey := recipientAuthority; isSigner := false; isWritable := true |};
          {| pubkey := recipientAccessAccount; isSigner := false; isWritable := true |};
          {| pubkey := datasetAccount; isSigner := false; isWritable := false |} ]
        (Bytes (Buffer_concat buffers)) in
    return_ shareAccessIx).

End Program.
End ConcatInstruction.

(** ** The wire contract as the specification words it *)

Module Spec.

Inductive Operation : Type :=
| InitUserAccount
| InitDataAccount
| SetDataParams
| PurchaseAccess
| ShareAccess.

(** Opcode enumeration: the first byte of every payload. *)
Definition opcode (op : Operation) : byte :=
  match op with
  | InitUserAccount => x00
  | InitDataAccount => x01
  | SetDataParams => x02
  | PurchaseAccess => x03
  | ShareAccess => x04
  end.

(** The three flag combinations of the account table. *)
Definition signer_writable (id : PublicKey) : AccountMeta :=
  {| pubkey := id; isSigner := true; isWritable := true |}.
Definition writable (id : PublicKey) : AccountMeta :=
  {| pubkey := id; isSigner := false; isWritable := true |}.
Definition read_only (id : PublicKey) : AccountMeta :=
  {| pubkey := id; isSigner := false; isWritable := false |}.

End Spec.

Import Spec.

(** ** One invocation of a builder

    A call names the builder and carries its arguments; the type of a hash
    and of an amount depends on the revision. *)

Inductive Call (Hash Amount : Type) : Type :=
| CallInitUserAccount
    (payer authority userAccount systemProgram : PublicKey)
    (accountType : AccountType)
| CallInitDataAccount
    (authority ownerAccount datasetAccount systemProgram : PublicKey)
    (hash : Hash)
| CallSetDataParams
    (authority datasetAccount : PublicKey) (hash : Hash) (params : Params)
| CallPurchaseAccess
    (userAuthority userAccessAccount userTokenAccount ownerAuthority
       ownerTokenAccount datasetAccount tokenProgram : PublicKey)
    (hash : Hash) (amount : Amount)
| CallShareAccess
    (userAuthority userAccessAccount recipientAuthority
       recipientAccessAccount datasetAccount : PublicKey)
    (hash : Hash).

Arguments CallInitUserAccount {Hash Amount}.
Arguments CallInitDataAccount {Hash Amount}.
Arguments CallSetDataParams {Hash Amount}.
Arguments CallPurchaseAccess {Hash Amount}.
Arguments CallShareAccess {Hash Amount}.

Section Calls.
Context {Hash Amount : Type}.

Definition operation (c : Call Hash Amount) : Operation :=
  match c with
  | CallInitUserAccount _ _ _ _ _ => InitUserAccount
  | CallInitDataAccount _ _ _ _ _ => InitDataAccount
  | CallSetDataParams _ _ _ _ => SetDataParams
  | CallPurchaseAccess _ _ _ _ _ _ _ _ _ => PurchaseAccess
  | CallShareAccess _ _ _ _ _ _ => ShareAccess
  end.


End Calls.

(** Dispatch of a call to the builder it names, per revision. *)

Definition invoke_src (programId : PublicKey) (c : Call Uint8Array number)
  : Outcome TransactionInstruction :=
  match c with
  | CallInitUserAccount a b c d t =>
      SrcInstruction.initUserAccountIx programId a b c d t
  | CallInitDataAccount a b c d h =>
      SrcInstruction.initDataAccountIx programId a b c d h
  | CallSetDataParams a b h p =>
      SrcInstruction.setDataParams programId a b h p
  | CallPurchaseAccess a b c d e f g h n =>
      SrcInstruction.purchaseAccess programId a b c d e f g h n
  | CallShareAccess a b c d e h =>
      SrcInstruction.shareAccess programId a b c d e h
  end.

Definition invoke_stub (programId : PublicKey) (c : Call Uint8Array number)
  : Outcome TransactionInstruction :=
  match c with
  | CallInitUserAccount a b c d t =>
      StubInstruction.initUserAccountIx programId a b c d t
  | CallInitDataAccount a b c d h =>
      StubInstruction.initDataAccountIx programId a b c d h
  | CallSetDataParams a b h p =>
      StubInstruction.setDataParams a b h p
  | CallPurchaseAccess a b c d e f g h n =>
      StubInstruction.purchaseAccess a b c d e f g h n
  | CallShareAccess a b c d e h =>
      StubInstruction.shareAccess a b c d e h
  end.

Definition invoke_concat (programId : PublicKey)
  (c : Call (list Buffer) Numberu64) : Outcome TransactionInstruction :=
  match c with
  | CallInitUserAccount a b c d t =>
      ConcatInstruction.initUserAccountIx programId a b c d t
  | CallInitDataAccount a b c d h =>
      ConcatInstruction.initDataAccountIx programId a b c d h
  | CallSetDataParams a b h p =>
      ConcatInstruction.setDataParams programId a b h p
  | CallPurchaseAccess a b c d e f g h n =>
      ConcatInstruction.purchaseAccess programId a b c d e f g h n
  | CallShareAccess a b c d e h =>
      ConcatInstruction.shareAccess programId a b c d e h
  end.

(** An invocation of a builder of one of the three revisions. *)
Inductive Invocation : Type :=
| OnSrc (c : Call Uint8Array number)
| OnStub (c : Call Uint8Array number)
| OnConcat (c : Call (list Buffer) Numberu64).

Definition run (programId : PublicKey) (i : Invocation)
  : Outcome TransactionInstruction :=
  match i with
  | OnSrc c => invoke_src programId c
  | OnStub c => invoke_stub programId c
  | OnConcat c => invoke_concat programId c
  end.

Definition invoked_operation (i : Invocation) : Operation :=
  match i with
  | OnSrc c | OnStub c => operation c
  | OnConcat c => operation c
  end.


(** [data[i]] on the stored payload: an octet of a buffer, or a whole
    buffer when the payload is an array of buffers. *)
Inductive Element : Type :=
| Octet (b : byte)
| NestedBuffer (b : Buffer).

Definition element_at (d : InstructionData) (i : nat) : option Element :=
  match d with
  | Bytes b => option_map Octet (nth_error b i)
  | BufferArray bs => option_map NestedBuffer (nth_error bs i)
  end.

(** The octets of a stored payload, in order. *)
Definition payload_octets (d : InstructionData) : Buffer :=
  match d with
  | Bytes b => b
  | BufferArray bs => Buffer_concat bs
  end.

(** The unsigned number a little-endian octet sequence stands for. *)
Fixpoint little_endian_value (b : Buffer) : Z :=
  match b with
  | [] => 0
  | x :: rest => byte_value x + 256 * little_endian_value rest
  end.

(** Sample identifiers and hashes for concrete runs. *)
Definition sample_key (tag : byte) : PublicKey :=
  {| toBytes := repeat tag 32 |}.

Definition zero_hash : Uint8Array := repeat x00 32.

(** ** Observations on outcomes *)

(** The outcome of every invocation, by revision and builder: a record is
    returned except by the three empty builders and the two that throw. *)
Definition returns_record (i : Invocation) : bool :=
  match i with
  | OnSrc (CallSetDataParams _ _ _ _) => false
  | OnSrc (CallPurchaseAccess _ _ _ _ _ _ _ _ _) => false
  | OnStub (CallSetDataParams _ _ _ _) => false
  | OnStub (CallPurchaseAccess _ _ _ _ _ _ _ _ _) => false
  | OnStub (CallShareAccess _ _ _ _ _ _) => false
  | _ => true
  end.

(** [returns_payload o payload]: the builder returned a record whose [data]
    is the buffer [payload]. *)
Definition returns_payload
  (o : Outcome TransactionInstruction) (payload : Buffer) : Prop :=
  exists ix, o = Fulfilled ix /\ data ix = Bytes payload.

(** The purchase builder of the second document of src/js/instruction.ts:
    seven references, flags as in the table. *)
Definition sample_purchase : Invocation :=
  OnConcat
    (CallPurchaseAccess (sample_key x01) (sample_key x02) (sample_key x03)
       (sample_key x04) (sample_key x05) (sample_key x06) (sample_key x07)
       [zero_hash] 1).

Definition sample_purchase_record : TransactionInstruction :=
  {| programId := sample_key xaa;
     keys :=
       [ {| pubkey := sample_key x01; isSigner := true; isWritable := true |};
         {| pubkey := sample_key x02; isSigner := false; isWritable := true |};
         {| pubkey := sample_key x03; isSigner := false; isWritable := true |};
         {| pubkey := sample_key x04; isSigner := false; isWritable := true |};
         {| pubkey := sample_key x05; isSigner := false; isWritable := true |};
         {| pubkey := sample_key x06; isSigner := false; isWritable := false |};
         {| pubkey := sample_key x07; isSigner := false; isWritable := false |} ];
     data :=
       BufferArray
         [ [x03]; zero_hash; [x01; x00; x00; x00; x00; x00; x00; x00] ] |}.

(** The payload the PurchaseAccess scenario of the specification expects:
    opcode 3, thirty-two zero octets, then 1 as 8 little-endian octets. *)
Definition purchase_scenario_payload : Buffer :=
  ([x03] ++ repeat x00 32 ++ [x01] ++ repeat x00 7)%list.

Definition payload_of (o : Outcome TransactionInstruction)
  : option InstructionData :=
  match o with
  | Fulfilled ix => Some (data ix)
  | _ => None
  end.

Definition accounts_of (o : Outcome TransactionInstruction)
  : option (list AccountMeta) :=
  match o with
  | Fulfilled ix => Some (keys ix)
  | _ => None
  end.

(** ** Transformations and projections of a call *)

(** A call with its account identifiers, its hash and its amount
    replaced argument by argument. *)
Definition map_call {H A H' A' : Type}
  (fk : PublicKey -> PublicKey) (fh : H -> H') (fa : A -> A')
  (c : Call H A) : Call H' A' :=
  match c with
  | CallInitUserAccount payer authority userAccount systemProgram t =>
      CallInitUserAccount (fk payer) (fk authority) (fk userAccount)
        (fk systemProgram) t
  | CallInitDataAccount authority ownerAccount datasetAccount
      systemProgram hash =>
      CallInitDataAccount (fk authority) (fk ownerAccount)
        (fk datasetAccount) (fk systemProgram) (fh hash)
  | CallSetDataParams authority datasetAccount hash params =>
      CallSetDataParams (fk authority) (fk datasetAccount) (fh hash) params
  | CallPurchaseAccess userAuthority userAccessAccount userTokenAccount
      ownerAuthority ownerTokenAccount datasetAccount tokenProgram hash
      amount =>
      CallPurchaseAccess (fk userAuthority) (fk userAccessAccount)
        (fk userTokenAccount) (fk ownerAuthority) (fk ownerTokenAccount)
        (fk datasetAccount) (fk tokenProgram) (fh hash) (fa amount)
  | CallShareAccess userAuthority userAccessAccount recipientAuthority
      recipientAccessAccount datasetAccount hash =>
      CallShareAccess (fk userAuthority) (fk userAccessAccount)
        (fk recipientAuthority) (fk recipientAccessAccount)
        (fk datasetAccount) (fh hash)
  end.

(** The same invocation with every account identifier renamed. *)
Definition rename_accounts (f : PublicKey -> PublicKey) (i : Invocation)
  : Invocation :=
  match i with
  | OnSrc c => OnSrc (map_call f (fun h => h) (fun n => n) c)
  | OnStub c => OnStub (map_call f (fun h => h) (fun n => n) c)
  | OnConcat c => OnConcat (map_call f (fun h => h) (fun n => n) c)
  end.

Definition rename_meta (f : PublicKey -> PublicKey) (a : AccountMeta)
  : AccountMeta :=
  {| pubkey := f (pubkey a);
     isSigner := isSigner a;
     isWritable := isWritable a |}.

(** The same call with another hash argument. *)
Definition set_hash {H A H' : Type} (hash : H') (c : Call H A) : Call H' A :=
  map_call (fun k => k) (fun _ => hash) (fun n => n) c.

(** A call of the one-buffer revisions, as the array revision takes it:
    the hash as an array holding that one buffer, the amount by its
    value. *)
Definition as_buffer_array (c : Call Uint8Array number)
  : Call (list Buffer) Numberu64 :=
  map_call (fun k => k) (fun h => [h]) (fun n => n) c.

(** The hash argument and the account-type argument of a call, when it
    has one. *)
Definition call_hash {H A : Type} (c : Call H A) : option H :=
  match c with
  | CallInitUserAccount _ _ _ _ _ => None
  | CallInitDataAccount _ _ _ _ hash => Some hash
  | CallSetDataParams _ _ hash _ => Some hash
  | CallPurchaseAccess _ _ _ _ _ _ _ hash _ => Some hash
  | CallShareAccess _ _ _ _ _ hash => Some hash
  end.

Definition call_account_type {H A : Type} (c : Call H A)
  : option AccountType :=
  match c with
  | CallInitUserAccount _ _ _ _ t => Some t
  | _ => None
  end.

(** The octets of the hash argument: the buffer itself, or the buffers of
    the array in order. *)
Definition hash_octets (i : Invocation) : option Buffer :=
  match i with
  | OnSrc c | OnStub c => call_hash c
  | OnConcat c => option_map Buffer_concat (call_hash c)
  end.

Definition account_type_of (i : Invocation) : option AccountType :=
  match i with
  | OnSrc c | OnStub c => call_account_type c
  | OnConcat c => call_account_type c
  end.

(** ** The builders with object allocation explicit

    Each invocation of a builder creates new objects: the program
    identifier, the typed arrays and buffers of the payload, the array of
    account entries and the instruction itself. Here the builders run
    against a heap: objects are allocated at the next free reference,
    account arguments and hashes are references to objects the caller
    owns, and the result is a reference to the new instruction. The
    entries [{pubkey, isSigner, isWritable}] of the account array are
    stored in the array by value, and the option object handed to the
    constructor is not kept. *)

Module Heap.

Definition Ref : Type := nat.

(** An entry of the account array: the reference to the caller's key
    object and the two flags. *)
Record KeyEntry : Type :=
  { entry_pubkey : Ref; entry_isSigner : bool; entry_isWritable : bool }.

Inductive Object : Type :=
| PublicKeyObject (value : PublicKey)
| OctetsObject (octets : list byte)        (* a Uint8Array or a Buffer *)
| ArrayObject (elements : list Ref)        (* an array of buffers *)
| KeysObject (entries : list KeyEntry)     (* an array of account entries *)
| InstructionObject (programId keys data : Ref).

Definition Heap : Type := list Object.

(** A computation that may allocate and may throw. *)
Definition Run (A : Type) : Type := Heap -> Completion A * Heap.

Definition unit_run {A : Type} (a : A) : Run A := fun h => (Normal a, h).

Definition lift {A : Type} (c : Completion A) : Run A := fun h => (c, h).

Definition bind_run {A B : Type} (m : Run A) (k : A -> Run B) : Run B :=
  fun h =>
    match m h with
    | (Normal a, h') => k a h'
    | (Throw e, h') => (Throw e, h')
    end.

Definition allocate (o : Object) : Run Ref :=
  fun h => (Normal (List.length h), (h ++ [o])%list).

(** The octets of the typed array or buffer at a reference, and the
    elements of the array at a reference. *)
Definition octets_at (h : Heap) (r : Ref) : list byte :=
  match nth_error h r with
  | Some (OctetsObject b) => b
  | _ => []
  end.

Definition elements_at (h : Heap) (r : Ref) : list Ref :=
  match nth_error h r with
  | Some (ArrayObject l) => l
  | _ => []
  end.

(** [new PublicKey(value)] *)
Definition new_PublicKey_at (value : PublicKey) : Run Ref :=
  allocate (PublicKeyObject (new_PublicKey value)).

(** [Uint8Array.of(...items)] *)
Definition Uint8Array_of_at (items : list number) : Run Ref :=
  allocate (OctetsObject (Uint8Array_of items)).

(** [Buffer.from(array)]: a new buffer with a copy of the octets. *)
Definition Buffer_from_at (a : Ref) : Run Ref :=
  fun h => allocate (OctetsObject (Buffer_from (octets_at h a))) h.

(** [Buffer.concat(list)]: a new buffer with the octets of the buffers of
    the array [list], in order. *)
Definition Buffer_concat_at (list : Ref) : Run Ref :=
  fun h =>
    allocate
      (OctetsObject (Buffer_concat (map (octets_at h) (elements_at h list))))
      h.

(** An array literal of buffers, and one of account entries. *)
Definition array_of (elements : list Ref) : Run Ref :=
  allocate (ArrayObject elements).

Definition keys_of (entries : list KeyEntry) : Run Ref :=
  allocate (KeysObject entries).

(** Spread [...a] of the typed array at [a]. *)
Definition spread_at (a : Ref) : Run (list number) :=
  fun h => (spread_Uint8Array (octets_at h a), h).

(** [amount.toBuffer()] *)
Definition Numberu64_toBuffer_at (amount : Numberu64) : Run Ref :=
  allocate (OctetsObject (Numberu64_toBuffer amount)).

(** [new TransactionInstruction({programId, keys, data})] *)
Definition new_TransactionInstruction_at (programId keys data : Ref)
  : Run Ref :=
  allocate (InstructionObject programId keys data).

(** The promise of an [async] function whose body ran against [h]. *)
Definition async_at {A : Type} (body : Run (option A))
  : Heap -> Outcome A * Heap :=
  fun h => let (c, h') := body h in (async c, h').

(** *** Reading a heap back *)

Definition key_at (h : Heap) (r : Ref) : option PublicKey :=
  match nth_error h r with
  | Some (PublicKeyObject k) => Some k
  | _ => None
  end.

Definition hash_at (h : Heap) (r : Ref) : option Uint8Array :=
  match nth_error h r with
  | Some (OctetsObject b) => Some b
  | _ => None
  end.

Fixpoint all_some {A : Type} (l : list (option A)) : option (list A) :=
  match l with
  | [] => Some []
  | Some a :: rest =>
      match all_some rest with
      | Some l' => Some (a :: l')
      | None => None
      end
  | None :: _ => None
  end.

Definition hash_array_at (h : Heap) (r : Ref) : option (list Buffer) :=
  match nth_error h r with
  | Some (ArrayObject l) => all_some (map (hash_at h) l)
  | _ => None
  end.

Definition entry_at (h : Heap) (e : KeyEntry) : option AccountMeta :=
  match key_at h (entry_pubkey e) with
  | Some k =>
      Some {| pubkey := k;
              isSigner := entry_isSigner e;
              isWritable := entry_isWritable e |}
  | None => None
  end.

Definition keys_at (h : Heap) (r : Ref) : option (list AccountMeta) :=
  match nth_error h r with
  | Some (KeysObject entries) => all_some (map (entry_at h) entries)
  | _ => None
  end.

Definition data_at (h : Heap) (r : Ref) : option InstructionData :=
  match nth_error h r with
  | Some (OctetsObject b) => Some (Bytes b)
  | Some (ArrayObject l) => Some (BufferArray (map (octets_at h) l))
  | _ => None
  end.

(** The contents of the instruction at a reference: the program
    identifier, the account list and the payload it reaches. *)
Definition instruction_at (h : Heap) (r : Ref)
  : option TransactionInstruction :=
  match nth_error h r with
  | Some (InstructionObject p k d) =>
      match key_at h p, keys_at h k, data_at h d with
      | Some p', Some k', Some d' =>
          Some {| programId := p'; keys := k'; data := d' |}
      | _, _, _ => None
      end
  | _ => None
  end.

End Heap.

Import Heap.

Declare Scope run_scope.
Delimit Scope run_scope with run.
Notation "x <~ c ;; k" := (bind_run c (fun x => k))
  (at level 61, c at next level, right associativity) : run_scope.
Local Open Scope run_scope.

Definition entry (pubkey : Ref) (isSigner isWritable : bool) : KeyEntry :=
  {| entry_pubkey := pubkey;
     entry_isSigner := isSigner;
     entry_isWritable := isWritable |}.

(** *** src/js/src/instruction.ts *)

Module SrcAllocating.
Section Program.

Variable DATANEXUS_PROGRAM_ID : PublicKey.

Definition initUserAccountIx
  (payer authority userAccount systemProgram : Ref)
  (accountType : AccountType) : Heap -> Outcome Ref * Heap :=
  async_at (
    dataNexusProgramId <~ new_PublicKey_at DATANEXUS_PROGRAM_ID ;;
    keys <~ keys_of
      [ entry payer true true;
        entry authority false true;
        entry userAccount false true;
        entry systemProgram false false ] ;;
    octets <~ Uint8Array_of_at [0; AccountType_value accountType] ;;
    data <~ Buffer_from_at octets ;;
    initUserAccountIx <~
      new_TransactionInstruction_at dataNexusProgramId keys data ;;
    unit_run (Some initUserAccountIx)).

Definition initDataAccountIx
  (authority ownerAccount datasetAccount systemProgram : Ref)
  (hash : Ref) : Heap -> Outcome Ref * Heap :=
  async_at (
    dataNexusProgramId <~ new_PublicKey_at DATANEXUS_PROGRAM_ID ;;
    keys <~ keys_of
      [ entry authority true true;
        entry ownerAccount false true;
        entry datasetAccount false true;
        entry systemProgram false false ] ;;
    hash_items <~ spread_at hash ;;
    octets <~ Uint8Array_of_at (1 :: hash_items) ;;
    data <~ Buffer_from_at octets ;;
    initDataAccountIx <~
      new_TransactionInstruction_at dataNexusProgramId keys data ;;
    unit_run (Some initDataAccountIx)).

Definition setDataParams
  (authority dataSetAccount : Ref)
  (hash : Ref) (params : Params) : Heap -> Outcome Ref * Heap :=
  async_at (
    let scope :=
      [ ("authority", authority); ("dataSetAccount", dataSetAccount) ] in
    dataNexusProgramId <~ new_PublicKey_at DATANEXUS_PROGRAM_ID ;;
    key0 <~ lift (identifier scope "authority") ;;
    key1 <~ lift (identifier scope "datasetAccount") ;;
    keys <~ keys_of [ entry key0 true true; entry key1 false true ] ;;
    hash_items <~ spread_at hash ;;
    octets <~ Uint8Array_of_at (2 :: hash_items) ;;
    data <~ Buffer_from_at octets ;;
    setDataParamsIx <~
      new_TransactionInstruction_at dataNexusProgramId keys data ;;
    unit_run (Some setDataParamsIx)).

Definition purchaseAccess
  (userAuthority userAccessAccount userTokenAccount ownerAuthority
     ownerTokenAccount datasetAccount tokenProgram : Ref)
  (hash : Ref) (amount : number) : Heap -> Outcome Ref * Heap :=
  async_at (
    dataNexusProgramId <~ new_PublicKey_at DATANEXUS_PROGRAM_ID ;;
    keys <~ keys_of
      [ entry userAuthority true true;
        entry userAccessAccount false true;
        entry userTokenAccount false true;
        entry ownerAuthority false true;
        entry ownerTokenAccount false true;
        entry datasetAccount false false;
        entry tokenProgram false false ] ;;
    hash_items <~ spread_at hash ;;
    amount_items <~ lift (spread_number "amount" amount) ;;
    octets <~ Uint8Array_of_at (3 :: hash_items ++ amount_items) ;;
    data <~ Buffer_from_at octets ;;
    purchaseAccessIx <~
      new_TransactionInstruction_at dataNexusProgramId keys data ;;
    unit_run (Some purchaseAccessIx)).

Definition shareAccess
  (userAuthority userAccessAccount recipientAuthority
     recipientAccessAccount datasetAccount : Ref)
  (hash : Ref) : Heap -> Outcome Ref * Heap :=
  async_at (
    dataNexusProgramId <~ new_PublicKey_at DATANEXUS_PROGRAM_ID ;;
    keys <~ keys_of
      [ entry userAuthority true true;
        entry userAccessAccount false true;
        entry recipientAuthority false true;
        entry recipientAccessAccount false true;
        entry datasetAccount false false ] ;;
    hash_items <~ spread_at hash ;;
    octets <~ Uint8Array_of_at (4 :: hash_items) ;;
    data <~ Buffer_from_at octets ;;
    shareAccessIx <~
      new_TransactionInstruction_at dataNexusProgramId keys data ;;
    unit_run (Some shareAccessIx)).

End Program.
End SrcAllocating.

(** *** src/js/instruction.ts, first document (lines 1-85) *)

Module StubAllocating.
Section Program.

Variable DATANEXUS_PROGRAM_ID : PublicKey.

Definition initUserAccountIx
  (payer authority userAccount systemProgram : Ref)
  (accountType : AccountType) : Heap -> Outcome Ref * Heap :=
  async_at (
    dataNexusProgramId <~ new_PublicKey_at DATANEXUS_PROGRAM_ID ;;
    keys <~ keys_of
      [ entry payer true true;
        entry authority false true;
        entry userAccount false true;
        entry systemProgram false false ] ;;
    octets <~ Uint8Array_of_at [0; AccountType_value accountType] ;;
    data <~ Buffer_from_at octets ;;
    initUserAccountIx <~
      new_TransactionInstruction_at dataNexusProgramId keys data ;;
    unit_run (Some initUserAccountIx)).

Definition initDataAccountIx
  (authority ownerAccount datasetAccount systemProgram : Ref)
  (hash : Ref) : Heap -> Outcome Ref * Heap :=
  async_at (
    dataNexusProgramId <~ new_PublicKey_at DATANEXUS_PROGRAM_ID ;;
    keys <~ keys_of
      [ entry authority true true;
        entry ownerAccount false true;
        entry datasetAccount false true;
        entry systemProgram false false ] ;;
    hash_items <~ spread_at hash ;;
    octets <~ Uint8Array_of_at (1 :: hash_items) ;;
    data <~ Buffer_from_at octets ;;
    initDataAccountIx <~
      new_TransactionInstruction_at dataNexusProgramId keys data ;;
    unit_run (Some initDataAccountIx)).

Definition setDataParams
  (authority dataSetAccount : Ref)
  (hash : Ref) (params : Params) : Heap -> Outcome Ref * Heap :=
  async_at (unit_run None).

Definition purchaseAccess
  (userAuthority userAccessAccount userTokenAccount ownerAuthority
     ownerTokenAccount datasetAccount tokenProgram : Ref)
  (hash : Ref) (amount : number) : Heap -> Outcome Ref * Heap :=
  async_at (unit_run None).

Definition shareAccess
  (userAuthority userAccessAccount recipientAuthority
     recipientAccessAccount datasetAccount : Ref)
  (hash : Ref) : Heap -> Outcome Ref * Heap :=
  async_at (unit_run None).

End Program.
End StubAllocating.

(** *** src/js/instruction.ts, second document (lines 86-215) *)

Module ConcatAllocating.
Section Program.

Variable DATANEXUS_PROGRAM_ID : PublicKey.

Definition initUserAccountIx
  (payer authority userAccount systemProgram : Ref)
  (accountType : AccountType) : Heap -> Outcome Ref * Heap :=
  async_at (
    dataNexusProgramId <~ new_PublicKey_at DATANEXUS_PROGRAM_ID ;;
    keys <~ keys_of
      [ entry payer true true;
        entry authority false true;
        entry userAccount false true;
        entry systemProgram false false ] ;;
    octets <~ Uint8Array_of_at [0; AccountType_value accountType] ;;
    data <~ Buffer_from_at octets ;;
    initUserAccountIx <~
      new_TransactionInstruction_at dataNexusProgramId keys data ;;
    unit_run (Some initUserAccountIx)).

Definition initDataAccountIx
  (authority ownerAccount datasetAccount systemProgram : Ref)
  (hash : Ref) : Heap -> Outcome Ref * Heap :=
  async_at (
    dataNexusProgramId <~ new_PublicKey_at DATANEXUS_PROGRAM_ID ;;
    tag <~ Uint8Array_of_at [1] ;;
    opcode_buffer <~ Buffer_from_at tag ;;
    hash_buffer <~ Buffer_concat_at hash ;;
    buffers <~ array_of [opcode_buffer; hash_buffer] ;;
    keys <~ keys_of
      [ entry authority true true;
        entry ownerAccount false true;
        entry datasetAccount false true;
        entry systemProgram false false ] ;;
    data <~ Buffer_concat_at buffers ;;
    initDataAccountIx <~
      new_TransactionInstruction_at dataNexusProgramId keys data ;;
    unit_run (Some initDataAccountIx)).

Definition setDataParams
  (authority datasetAccount : Ref)
  (hash : Ref) (params : Params) : Heap -> Outcome Ref * Heap :=
  async_at (
    dataNexusProgramId <~ new_PublicKey_at DATANEXUS_PROGRAM_ID ;;
    tag <~ Uint8Array_of_at [2] ;;
    opcode_buffer <~ Buffer_from_at tag ;;
    hash_buffer <~ Buffer_concat_at hash ;;
    buffers <~ array_of [opcode_buffer; hash_buffer] ;;
    keys <~ keys_of
      [ entry authority true true; entry datasetAccount false true ] ;;
    data <~ Buffer_concat_at buffers ;;
    setDataParamsIx <~
      new_TransactionInstruction_at dataNexusProgramId keys data ;;
    unit_run (Some setDataParamsIx)).

Definition purchaseAccess
  (userAuthority userAccessAccount userTokenAccount ownerAuthority
     ownerTokenAccount datasetAccount tokenProgram : Ref)
  (hash : Ref) (amount : Numberu64) : Heap -> Outcome Ref * Heap :=
  async_at (
    dataNexusProgramId <~ new_PublicKey_at DATANEXUS_PROGRAM_ID ;;
    tag <~ Uint8Array_of_at [3] ;;
    opcode_buffer <~ Buffer_from_at tag ;;
    hash_buffer <~ Buffer_concat_at hash ;;
    amount_buffer <~ Numberu64_toBuffer_at amount ;;
    buffers <~ array_of [opcode_buffer; hash_buffer; amount_buffer] ;;
    keys <~ keys_of
      [ entry userAuthority true true;
        entry userAccessAccount false true;
        entry userTokenAccount false true;
        entry ownerAuthority false true;
        entry ownerTokenAccount false true;
        entry datasetAccount false false;
        entry tokenProgram false false ] ;;
    purchaseAccessIx <~
      new_TransactionInstruction_at dataNexusProgramId keys buffers ;;
    unit_run (Some purchaseAccessIx)).

Definition shareAccess
  (userAuthority userAccessAccount recipientAuthority
     recipientAccessAccount datasetAccount : Ref)
  (hash : Ref) : Heap -> Outcome Ref * Heap :=
  async_at (
    dataNexusProgramId <~ new_PublicKey_at DATANEXUS_PROGRAM_ID ;;
    tag <~ Uint8Array_of_at [4] ;;
    opcode_buffer <~ Buffer_from_at tag ;;
    hash_buffer <~ Buffer_concat_at hash ;;
    buffers <~ array_of [opcode_buffer; hash_buffer] ;;
    keys <~ keys_of
      [ entry userAuthority true true;
        entry userAccessAccount false true;
        entry recipientAuthority false true;
        entry recipientAccessAccount false true;
        entry datasetAccount false false ] ;;
    data <~ Buffer_concat_at buffers ;;
    shareAccessIx <~
      new_TransactionInstruction_at dataNexusProgramId keys data ;;
    unit_run (Some shareAccessIx)).

End Program.
End ConcatAllocating.

(** *** One invocation against a heap *)

(** A call whose account arguments and hash are references. *)
Inductive RefCall : Type :=
| AtInitUserAccount
    (payer authority userAccount systemProgram : Ref)
    (accountType : AccountType)
| AtInitDataAccount
    (authority ownerAccount datasetAccount systemProgram : Ref)
    (hash : Ref)
| AtSetDataParams
    (authority datasetAccount : Ref) (hash : Ref) (params : Params)
| AtPurchaseAccess
    (userAuthority userAccessAccount userTokenAccount ownerAuthority
       ownerTokenAccount datasetAccount tokenProgram : Ref)
    (hash : Ref) (amount : Z)
| AtShareAccess
    (userAuthority userAccessAccount recipientAuthority
       recipientAccessAccount datasetAccount : Ref)
    (hash : Ref).

Definition invoke_src_at (programId : PublicKey) (c : RefCall)
  : Heap -> Outcome Ref * Heap :=
  match c with
  | AtInitUserAccount a b c d t =>
      SrcAllocating.initUserAccountIx programId a b c d t
  | AtInitDataAccount a b c d h =>
      SrcAllocating.initDataAccountIx programId a b c d h
  | AtSetDataParams a b h p =>
      SrcAllocating.setDataParams programId a b h p
  | AtPurchaseAccess a b c d e f g h n =>
      SrcAllocating.purchaseAccess programId a b c d e f g h n
  | AtShareAccess a b c d e h =>
      SrcAllocating.shareAccess programId a b c d e h
  end.

Definition invoke_stub_at (programId : PublicKey) (c : RefCall)
  : Heap -> Outcome Ref * Heap :=
  match c with
  | AtInitUserAccount a b c d t =>
      StubAllocating.initUserAccountIx programId a b c d t
  | AtInitDataAccount a b c d h =>
      StubAllocating.initDataAccountIx programId a b c d h
  | AtSetDataParams a b h p =>
      StubAllocating.setDataParams a b h p
  | AtPurchaseAccess a b c d e f g h n =>
      StubAllocating.purchaseAccess a b c d e f g h n
  | AtShareAccess a b c d e h =>
      StubAllocating.shareAccess a b c d e h
  end.

Definition invoke_concat_at (programId : PublicKey) (c : RefCall)
  : Heap -> Outcome Ref * Heap :=
  match c with
  | AtInitUserAccount a b c d t =>
      ConcatAllocating.initUserAccountIx programId a b c d t
  | AtInitDataAccount a b c d h =>
      ConcatAllocating.initDataAccountIx programId a b c d h
  | AtSetDataParams a b h p =>
      ConcatAllocating.setDataParams programId a b h p
  | AtPurchaseAccess a b c d e f g h n =>
      ConcatAllocating.purchaseAccess programId a b c d e f g h n
  | AtShareAccess a b c d e h =>
      ConcatAllocating.shareAccess programId a b c d e h
  end.

Inductive RefInvocation : Type :=
| AtSrc (c : RefCall)
| AtStub (c : RefCall)
| AtConcat (c : RefCall).

Definition run_at (programId : PublicKey) (i : RefInvocation)
  : Heap -> Outcome Ref * Heap :=
  match i with
  | AtSrc c => invoke_src_at programId c
  | AtStub c => invoke_stub_at programId c
  | AtConcat c => invoke_concat_at programId c
  end.

(** The arguments of a call as the heap holds them: the key behind every
    account reference and the octets behind the hash reference. There are
    none when a reference does not lead to an object of the parameter's
    type. *)
Definition arguments_of {H : Type} (read_hash : Heap -> Ref -> option H)
  (h : Heap) (c : RefCall) : option (Call H Z) :=
  match c with
  | AtInitUserAccount p a u s t =>
      match all_some (map (key_at h) [p; a; u; s]) with
      | Some [p'; a'; u'; s'] => Some (CallInitUserAccount p' a' u' s' t)
      | _ => None
      end
  | AtInitDataAccount a o d s hash =>
      match all_some (map (key_at h) [a; o; d; s]), read_hash h hash with
      | Some [a'; o'; d'; s'], Some hash' =>
          Some (CallInitDataAccount a' o' d' s' hash')
      | _, _ => None
      end
  | AtSetDataParams a d hash params =>
      match all_some (map (key_at h) [a; d]), read_hash h hash with
      | Some [a'; d'], Some hash' =>
          Some (CallSetDataParams a' d' hash' params)
      | _, _ => None
      end
  | AtPurchaseAccess u ua ut o ot d t hash amount =>
      match all_some (map (key_at h) [u; ua; ut; o; ot; d; t]),
            read_hash h hash with
      | Some [u'; ua'; ut'; o'; ot'; d'; t'], Some hash' =>
          Some (CallPurchaseAccess u' ua' ut' o' ot' d' t' hash' amount)
      | _, _ => None
      end
  | AtShareAccess u ua r ra d hash =>
      match all_some (map (key_at h) [u; ua; r; ra; d]),
            read_hash h hash with
      | Some [u'; ua'; r'; ra'; d'], Some hash' =>
          Some (CallShareAccess u' ua' r' ra' d' hash')
      | _, _ => None
      end
  end.

Definition arguments (h : Heap) (i : RefInvocation) : option Invocation :=
  match i with
  | AtSrc c => option_map OnSrc (arguments_of hash_at h c)
  | AtStub c => option_map OnStub (arguments_of hash_at h c)
  | AtConcat c => option_map OnConcat (arguments_of hash_array_at h c)
  end.

(** What a caller can see of a settled invocation: how the promise
    settled and, when it holds an instruction, the contents of that
    instruction in the heap the invocation left. *)
Definition observe (result : Outcome Ref * Heap)
  : Outcome (option TransactionInstruction) :=
  match fst result with
  | Fulfilled r => Fulfilled (instruction_at (snd result) r)
  | FulfilledUndefined => FulfilledUndefined
  | Rejected e => Rejected e
  end.

Definition settled (o : Outcome TransactionInstruction)
  : Outcome (option TransactionInstruction) :=
  match o with
  | Fulfilled ix => Fulfilled (Some ix)
  | FulfilledUndefined => FulfilledUndefined
  | Rejected e => Rejected e
  end.

(** A heap for concrete runs: seven keys at references 0 to 6, a hash of
    32 zero octets at 7, and at 9 an array holding the buffer at 8 (the
    same 32 octets). *)
Definition sample_heap : Heap :=
  [ PublicKeyObject (sample_key x01); PublicKeyObject (sample_key x02);
    PublicKeyObject (sample_key x03); PublicKeyObject (sample_key x04);
    PublicKeyObject (sample_key x05); PublicKeyObject (sample_key x06);
    PublicKeyObject (sample_key x07); OctetsObject zero_hash;
    OctetsObject zero_hash; ArrayObject [8%nat] ].

Definition sample_purchase_at : RefInvocation :=
  AtConcat (AtPurchaseAccess 0%nat 1%nat 2%nat 3%nat 4%nat 5%nat 6%nat
              9%nat 1).

(** * Properties *)

(** ** Octets and typed arrays *)

Lemma ToUint8_byte_value (b : byte) : ToUint8 (byte_value b) = b.
Proof. destruct b; reflexivity. Qed.

Lemma Uint8Array_of_elements (a : Uint8Array) :
  Uint8Array_of (map byte_value a) = a.
Proof.
  unfold Uint8Array_of.
  induction a as [|b a IH]; simpl.
  - reflexivity.
  - rewrite ToUint8_byte_value, IH. reflexivity.
Qed.

Lemma Uint8Array_of_tagged (tag : number) (a : Uint8Array) :
  Uint8Array_of (tag :: map byte_value a) = ToUint8 tag :: a.
Proof.
  change (Uint8Array_of (tag :: map byte_value a))
    with (ToUint8 tag :: Uint8Array_of (map byte_value a)).
  now rewrite Uint8Array_of_elements.
Qed.

Lemma byte_value_ToUint8 (x : number) : byte_value (ToUint8 x) = x mod 256.
Proof.
  unfold ToUint8, byte_value.
  assert (Hr : 0 <= x mod 256 < 256) by (apply Z.mod_pos_bound; lia).
  destruct (Byte.of_N (Z.to_N (x mod 256))) as [b|] eqn:E.
  - apply Byte.to_of_N in E. rewrite E. lia.
  - apply Byte.of_N_None_iff in E. lia.
Qed.

Lemma little_endian_value_inverse (width : nat) (v : Z) :
  0 <= v < 256 ^ Z.of_nat width ->
  little_endian_value (little_endian width v) = v.
Proof.
  revert v. induction width as [|w IH]; intros v Hv.
  - simpl in *. lia.
  - cbn [little_endian little_endian_value].
    rewrite byte_value_ToUint8, IH.
    + pose proof (Z.div_mod v 256). lia.
    + rewrite Nat2Z.inj_succ, Z.pow_succ_r in Hv by lia.
      split.
      * apply Z.div_pos; lia.
      * apply Z.div_lt_upper_bound; lia.
Qed.

Lemma little_endian_length (width : nat) (v : Z) :
  List.length (little_endian width v) = width.
Proof.
  revert v. induction width as [|w IH]; intro v; simpl.
  - reflexivity.
  - now rewrite IH.
Qed.

(** ** Which builders hand back a record *)

(** The payload of the one-buffer builders of src/js/src/instruction.ts. *)
Lemma src_initDataAccountIx_eq pid a o d s (hash : Uint8Array) :
  SrcInstruction.initDataAccountIx pid a o d s hash =
  Fulfilled
    {| programId := pid;
       keys := [ signer_writable a; writable o; writable d; read_only s ];
       data := Bytes (x01 :: hash) |}.
Proof.
  unfold SrcInstruction.initDataAccountIx, spread_Uint8Array, bind,
    new_TransactionInstruction, new_PublicKey, Buffer_from, return_, async.
  now rewrite Uint8Array_of_tagged.
Qed.

Lemma src_shareAccess_eq pid u ua r ra d (hash : Uint8Array) :
  SrcInstruction.shareAccess pid u ua r ra d hash =
  Fulfilled
    {| programId := pid;
       keys := [ signer_writable u; writable ua; writable r; writable ra;
                 read_only d ];
       data := Bytes (x04 :: hash) |}.
Proof.
  unfold SrcInstruction.shareAccess, spread_Uint8Array, bind,
    new_TransactionInstruction, new_PublicKey, Buffer_from, return_, async.
  now rewrite Uint8Array_of_tagged.
Qed.

Lemma stub_initDataAccountIx_eq pid a o d s (hash : Uint8Array) :
  StubInstruction.initDataAccountIx pid a o d s hash =
  Fulfilled
    {| programId := pid;
       keys := [ signer_writable a; writable o; writable d; read_only s ];
       data := Bytes (x01 :: hash) |}.
Proof.
  unfold StubInstruction.initDataAccountIx, spread_Uint8Array, bind,
    new_TransactionInstruction, new_PublicKey, Buffer_from, return_, async.
  now rewrite Uint8Array_of_tagged.
Qed.

(** In src/js/src/instruction.ts two builders never reach their [return]. *)
Lemma src_setDataParams_throws pid a d hash params :
  SrcInstruction.setDataParams pid a d hash params =
  Rejected (ReferenceError "datasetAccount").
Proof. reflexivity. Qed.

Lemma src_purchaseAccess_throws pid u ua ut o ot d t hash amount :
  SrcInstruction.purchaseAccess pid u ua ut o ot d t hash amount =
  Rejected (TypeError_not_iterable "amount").
Proof. reflexivity. Qed.

(** In the second document of src/js/instruction.ts all five do. *)
Lemma concat_revision_returns pid (c : Call (list Buffer) Numberu64) :
  exists ix, invoke_concat pid c = Fulfilled ix.
Proof. destruct c; simpl; eexists; reflexivity. Qed.

Lemma run_returns_record pid (i : Invocation) :
  returns_record i = true <-> exists ix, run pid i = Fulfilled ix.
Proof.
  split.
  - destruct i as [c|c|c]; destruct c; simpl; intro H;
      try discriminate H;
      rewrite ?src_initDataAccountIx_eq, ?src_shareAccess_eq,
        ?stub_initDataAccountIx_eq;
      eexists; reflexivity.
  - intros [ix H]. destruct i as [c|c|c]; destruct c; simpl in *;
      try reflexivity; discriminate H.
Qed.

Ltac run_cases i H :=
  destruct i as [[]|[]|[]]; simpl in H;
  rewrite ?src_initDataAccountIx_eq, ?src_shareAccess_eq,
    ?stub_initDataAccountIx_eq in H;
  try discriminate H;
  injection H as <-.

(** ** Account lists *)





(** ** Payloads *)

(** Wherever a builder returns a record whose payload is a buffer, the
    first octet is the opcode of the operation. *)
Lemma opcode_first_of_buffer_payload
  (pid : PublicKey) (i : Invocation) (ix : TransactionInstruction)
  (payload : Buffer) :
  run pid i = Fulfilled ix -> data ix = Bytes payload ->
  nth_error payload 0 = Some (opcode (invoked_operation i)).
Proof.
  intros H Hd. run_cases i H; simpl in Hd;
    try discriminate Hd; injection Hd as <-;
    try reflexivity;
    match goal with t : AccountType |- _ => destruct t; reflexivity end.
Qed.

(** C2. The purchase builder of the second document of
    src/js/instruction.ts returns a record for every input, but its payload
    is the array of the three buffers, not their concatenation: position 0
    holds the one-octet buffer [03], not the opcode octet 3. *)
Theorem purchaseAccess_first_element_is_buffer
  (pid u ua ut o ot d t : PublicKey) (hash : list Buffer)
  (amount : Numberu64) :
  exists ix,
    run pid (OnConcat (CallPurchaseAccess u ua ut o ot d t hash amount))
      = Fulfilled ix /\
    data ix =
      BufferArray [ [x03]; Buffer_concat hash; Numberu64_toBuffer amount ] /\
    element_at (data ix) 0 = Some (NestedBuffer [x03]) /\
    element_at (data ix) 0 <> Some (Octet (opcode PurchaseAccess)).
Proof.
  eexists. split; [reflexivity|]. simpl.
  split; [reflexivity|]. split; [reflexivity|]. discriminate.
Qed.

(** C3 as stated fails: the sequence it lists has 41 octets, not 42, and
    the record the purchase builder returns on that input does not hold it
    as its payload buffer. *)
Lemma purchaseAccess_scenario_counterexample :
  List.length purchase_scenario_payload <> 42%nat /\
  ~ returns_payload
      (ConcatInstruction.purchaseAccess (sample_key xaa)
         (sample_key x01) (sample_key x02) (sample_key x03) (sample_key x04)
         (sample_key x05) (sample_key x06) (sample_key x07) [zero_hash] 1)
      purchase_scenario_payload.
Proof.
  split.
  - discriminate.
  - intros [ix [H Hd]]. injection H as <-. discriminate Hd.
Qed.

(** C3, amended. In the second document of src/js/instruction.ts, for a
    hash of 32 octets in all and an amount in the unsigned 64-bit range, the
    octets of the payload the purchase builder returns are, in order, the
    opcode octet 3, the 32 hash octets and the amount as exactly 8 octets,
    little-endian: 41 octets in all. *)
Theorem purchaseAccess_payload_octets
  (pid u ua ut o ot d t : PublicKey) (hash : list Buffer)
  (amount : Numberu64) :
  List.length (Buffer_concat hash) = 32%nat ->
  0 <= amount < 2 ^ 64 ->
  exists ix amount_octets,
    ConcatInstruction.purchaseAccess pid u ua ut o ot d t hash amount
      = Fulfilled ix /\
    payload_octets (data ix)
      = (x03 :: Buffer_concat hash ++ amount_octets)%list /\
    List.length amount_octets = 8%nat /\
    little_endian_value amount_octets = amount /\
    List.length (payload_octets (data ix)) = 41%nat.
Proof.
  intros Hlen Hrange.
  eexists. exists (Numberu64_toBuffer amount).
  split; [reflexivity|].
  assert (Hoct :
    payload_octets
      (BufferArray [ Buffer_from (Uint8Array_of [3]); Buffer_concat hash;
                     Numberu64_toBuffer amount ])
    = (x03 :: Buffer_concat hash ++ Numberu64_toBuffer amount)%list).
  { unfold payload_octets. unfold Buffer_concat at 1.
    cbn [List.concat]. now rewrite app_nil_r. }
  split; [exact Hoct|].
  split; [apply little_endian_length|].
  split.
  - apply little_endian_value_inverse. exact Hrange.
  - cbn [data new_TransactionInstruction]. rewrite Hoct.
    cbn [List.length]. rewrite length_app, Hlen.
    unfold Numberu64_toBuffer. now rewrite little_endian_length.
Qed.

Lemma purchaseAccess_payload_octets_witness :
  List.length (Buffer_concat [zero_hash]) = 32%nat /\
  0 <= 1 < 2 ^ 64 /\
  exists ix amount_octets,
    ConcatInstruction.purchaseAccess (sample_key xaa)
      (sample_key x01) (sample_key x02) (sample_key x03) (sample_key x04)
      (sample_key x05) (sample_key x06) (sample_key x07) [zero_hash] 1
      = Fulfilled ix /\
    payload_octets (data ix)
      = (x03 :: Buffer_concat [zero_hash] ++ amount_octets)%list /\
    List.length amount_octets = 8%nat /\
    little_endian_value amount_octets = 1 /\
    List.length (payload_octets (data ix)) = 41%nat.
Proof.
  split; [reflexivity|].
  split; [lia|].
  apply (purchaseAccess_payload_octets (sample_key xaa)
           (sample_key x01) (sample_key x02) (sample_key x03) (sample_key x04)
           (sample_key x05) (sample_key x06) (sample_key x07) [zero_hash] 1).
  - reflexivity.
  - lia.
Defined.

(** On the scenario input the octets are those the specification lists. *)
Lemma purchaseAccess_scenario_octets (pid u ua ut o ot d t : PublicKey) :
  exists ix,
    ConcatInstruction.purchaseAccess pid u ua ut o ot d t [zero_hash] 1
      = Fulfilled ix /\
    payload_octets (data ix) = purchase_scenario_payload.
Proof. eexists. split; reflexivity. Qed.

(** C4 as stated fails: with a 32-octet hash and a one-octet [Params] the
    payload of [setDataParams] has 33 octets, not 34. *)
Lemma setDataParams_length_counterexample :
  exists ix payload,
    ConcatInstruction.setDataParams (sample_key xaa) (sample_key x01)
      (sample_key x02) [zero_hash] [x2a] = Fulfilled ix /\
    data ix = Bytes payload /\
    List.length (Buffer_concat [zero_hash]) = 32%nat /\
    List.length payload = 33%nat /\
    List.length payload <> (33 + List.length [x2a])%nat.
Proof.
  eexists. eexists. split; [reflexivity|]. simpl.
  split; [reflexivity|]. split; [reflexivity|].
  split; [reflexivity|]. discriminate.
Qed.

(** C4, amended. In the second document of src/js/instruction.ts, for a
    hash of 32 octets in all and a [Params] value of any length,
    [setDataParams] returns a payload of exactly 33 octets: the opcode
    octet 2, then the 32 hash octets; no octet of [Params] follows. *)
Theorem setDataParams_payload_length
  (pid authority datasetAccount : PublicKey) (hash : list Buffer)
  (params : Params) :
  List.length (Buffer_concat hash) = 32%nat ->
  exists payload,
    returns_payload
      (ConcatInstruction.setDataParams pid authority datasetAccount hash
         params) payload /\
    payload = x02 :: Buffer_concat hash /\
    List.length payload = 33%nat.
Proof.
  intro Hlen. exists (x02 :: Buffer_concat hash).
  split; [|split].
  - eexists. split; [reflexivity|]. simpl.
    unfold Buffer_from, Buffer_concat. simpl.
    now rewrite app_nil_r.
  - reflexivity.
  - simpl. now rewrite Hlen.
Qed.

Lemma setDataParams_payload_length_witness :
  List.length (Buffer_concat [zero_hash]) = 32%nat /\
  exists payload,
    returns_payload
      (ConcatInstruction.setDataParams (sample_key xaa) (sample_key x01)
         (sample_key x02) [zero_hash] [x2a; x2b; x2c]) payload /\
    payload = x02 :: Buffer_concat [zero_hash] /\
    List.length payload = 33%nat.
Proof.
  split.
  - reflexivity.
  - apply (setDataParams_payload_length (sample_key xaa) (sample_key x01)
             (sample_key x02) [zero_hash] [x2a; x2b; x2c]).
    reflexivity.
Defined.

(** C6. In every revision [initUserAccountIx] returns, for every input, a
    payload of exactly 2 octets; for the account type ACCESS the payload is
    [00 01]. *)
Theorem initUserAccountIx_payload
  (pid payer authority userAccount systemProgram : PublicKey) :
  (forall accountType,
     exists payload,
       List.length payload = 2%nat /\
       returns_payload
         (SrcInstruction.initUserAccountIx pid payer authority userAccount
            systemProgram accountType) payload /\
       returns_payload
         (StubInstruction.initUserAccountIx pid payer authority userAccount
            systemProgram accountType) payload /\
       returns_payload
         (ConcatInstruction.initUserAccountIx pid payer authority userAccount
            systemProgram accountType) payload) /\
  returns_payload
    (SrcInstruction.initUserAccountIx pid payer authority userAccount
       systemProgram ACCESS) [x00; x01] /\
  returns_payload
    (StubInstruction.initUserAccountIx pid payer authority userAccount
       systemProgram ACCESS) [x00; x01] /\
  returns_payload
    (ConcatInstruction.initUserAccountIx pid payer authority userAccount
       systemProgram ACCESS) [x00; x01].
Proof.
  split.
  - intro accountType.
    exists (Uint8Array_of [0; AccountType_value accountType]).
    split; [reflexivity|].
    repeat split; eexists; (split; [reflexivity|reflexivity]).
  - repeat split; eexists; (split; [reflexivity|reflexivity]).
Qed.

(** C10. The hash-taking builders check no length. In
    src/js/src/instruction.ts, for a hash of any length,
    [initDataAccountIx] and [shareAccess] return a payload that is the
    opcode octet followed by the hash octets unchanged, of length one more
    than the hash; so do [initDataAccountIx] in the first document of
    src/js/instruction.ts and both builders in its second document, where
    the hash octets are those of the buffers of the array, joined. *)
Theorem hash_copied_verbatim (pid k1 k2 k3 k4 k5 : PublicKey) :
  (forall hash : Uint8Array,
     returns_payload
       (SrcInstruction.initDataAccountIx pid k1 k2 k3 k4 hash)
       (x01 :: hash) /\
     returns_payload
       (SrcInstruction.shareAccess pid k1 k2 k3 k4 k5 hash)
       (x04 :: hash) /\
     returns_payload
       (StubInstruction.initDataAccountIx pid k1 k2 k3 k4 hash)
       (x01 :: hash) /\
     List.length (x01 :: hash) = (1 + List.length hash)%nat /\
     List.length (x04 :: hash) = (1 + List.length hash)%nat) /\
  (forall hash : list Buffer,
     returns_payload
       (ConcatInstruction.initDataAccountIx pid k1 k2 k3 k4 hash)
       (x01 :: Buffer_concat hash) /\
     returns_payload
       (ConcatInstruction.shareAccess pid k1 k2 k3 k4 k5 hash)
       (x04 :: Buffer_concat hash) /\
     List.length (x01 :: Buffer_concat hash)
       = (1 + List.length (Buffer_concat hash))%nat /\
     List.length (x04 :: Buffer_concat hash)
       = (1 + List.length (Buffer_concat hash))%nat).
Proof.
  split; intro hash.
  - rewrite src_initDataAccountIx_eq, src_shareAccess_eq,
      stub_initDataAccountIx_eq.
    repeat split; eexists; (split; [reflexivity|reflexivity]).
  - assert (Hjoin : forall op : number,
      Buffer_concat [ Buffer_from (Uint8Array_of [op]); Buffer_concat hash ]
      = ToUint8 op :: Buffer_concat hash).
    { intro op. unfold Buffer_concat at 1. cbn [List.concat].
      now rewrite app_nil_r. }
    repeat split; eexists;
      (split; [reflexivity|]);
      cbn [data new_TransactionInstruction]; now rewrite Hjoin.
Qed.

(** ** Totality *)

(** C5. Not every builder returns a record: in the first document of
    src/js/instruction.ts three builders have an empty body and return
    [undefined] on every input; in src/js/src/instruction.ts
    [setDataParams] throws on every input because it refers to an unbound
    name, and [purchaseAccess] throws on every input because it spreads a
    number. *)
Theorem builders_not_total
  (pid k1 k2 k3 k4 k5 k6 k7 : PublicKey) (hash : Uint8Array)
  (params : Params) (amount : number) :
  StubInstruction.setDataParams k1 k2 hash params = FulfilledUndefined /\
  StubInstruction.purchaseAccess k1 k2 k3 k4 k5 k6 k7 hash amount
    = FulfilledUndefined /\
  StubInstruction.shareAccess k1 k2 k3 k4 k5 hash = FulfilledUndefined /\
  SrcInstruction.setDataParams pid k1 k2 hash params
    = Rejected (ReferenceError "datasetAccount") /\
  SrcInstruction.purchaseAccess pid k1 k2 k3 k4 k5 k6 k7 hash amount
    = Rejected (TypeError_not_iterable "amount").
Proof. repeat split. Qed.

(** ** Dependence on the arguments *)

(** C9. The outcome of [setDataParams] does not depend on [params]: in each
    revision two calls that differ only in that argument settle the same
    way, and where a record is returned it is the same record. *)
Theorem setDataParams_ignores_params
  (pid authority datasetAccount : PublicKey) (params1 params2 : Params) :
  (forall hash : Uint8Array,
     SrcInstruction.setDataParams pid authority datasetAccount hash params1
     = SrcInstruction.setDataParams pid authority datasetAccount hash params2)
  /\
  (forall hash : Uint8Array,
     StubInstruction.setDataParams authority datasetAccount hash params1
     = StubInstruction.setDataParams authority datasetAccount hash params2)
  /\
  (forall hash : list Buffer,
     exists ix,
       ConcatInstruction.setDataParams pid authority datasetAccount hash
         params1 = Fulfilled ix /\
       ConcatInstruction.setDataParams pid authority datasetAccount hash
         params2 = Fulfilled ix /\
       programId ix = pid /\
       keys ix = [ signer_writable authority; writable datasetAccount ] /\
       data ix = Bytes (x02 :: Buffer_concat hash)).
Proof.
  split; [reflexivity|]. split; [reflexivity|].
  intro hash. eexists. split; [reflexivity|]. split; [reflexivity|].
  split; [reflexivity|]. split; [reflexivity|].
  cbn [data new_TransactionInstruction].
  unfold Buffer_concat at 1. cbn [List.concat].
  now rewrite app_nil_r.
Qed.

(** * Further properties of the builders *)

(** ** The outcome of each builder, in closed form *)

Lemma Buffer_concat_tagged (tag : number) (hash : list Buffer) :
  Buffer_concat [ Buffer_from (Uint8Array_of [tag]); Buffer_concat hash ]
  = ToUint8 tag :: Buffer_concat hash.
Proof.
  unfold Buffer_concat at 1. cbn [List.concat]. now rewrite app_nil_r.
Qed.

Lemma Buffer_concat_single (b : Buffer) : Buffer_concat [b] = b.
Proof. unfold Buffer_concat. cbn [List.concat]. apply app_nil_r. Qed.

Lemma src_initUserAccountIx_eq pid p a u s t :
  SrcInstruction.initUserAccountIx pid p a u s t =
  Fulfilled
    {| programId := pid;
       keys := [ signer_writable p; writable a; writable u; read_only s ];
       data := Bytes [x00; ToUint8 (AccountType_value t)] |}.
Proof. reflexivity. Qed.

Lemma stub_initUserAccountIx_eq pid p a u s t :
  StubInstruction.initUserAccountIx pid p a u s t =
  Fulfilled
    {| programId := pid;
       keys := [ signer_writable p; writable a; writable u; read_only s ];
       data := Bytes [x00; ToUint8 (AccountType_value t)] |}.
Proof. reflexivity. Qed.

Lemma concat_initUserAccountIx_eq pid p a u s t :
  ConcatInstruction.initUserAccountIx pid p a u s t =
  Fulfilled
    {| programId := pid;
       keys := [ signer_writable p; writable a; writable u; read_only s ];
       data := Bytes [x00; ToUint8 (AccountType_value t)] |}.
Proof. reflexivity. Qed.

Lemma concat_initDataAccountIx_eq pid a o d s (hash : list Buffer) :
  ConcatInstruction.initDataAccountIx pid a o d s hash =
  Fulfilled
    {| programId := pid;
       keys := [ signer_writable a; writable o; writable d; read_only s ];
       data := Bytes (x01 :: Buffer_concat hash) |}.
Proof.
  unfold ConcatInstruction.initDataAccountIx, new_TransactionInstruction,
    new_PublicKey, return_, async.
  now rewrite Buffer_concat_tagged.
Qed.

Lemma concat_setDataParams_eq pid a d (hash : list Buffer) params :
  ConcatInstruction.setDataParams pid a d hash params =
  Fulfilled
    {| programId := pid;
       keys := [ signer_writable a; writable d ];
       data := Bytes (x02 :: Buffer_concat hash) |}.
Proof.
  unfold ConcatInstruction.setDataParams, new_TransactionInstruction,
    new_PublicKey, return_, async.
  now rewrite Buffer_concat_tagged.
Qed.

Lemma concat_purchaseAccess_eq pid u ua ut o ot d t (hash : list Buffer)
  amount :
  ConcatInstruction.purchaseAccess pid u ua ut o ot d t hash amount =
  Fulfilled
    {| programId := pid;
       keys := [ signer_writable u; writable ua; writable ut; writable o;
                 writable ot; read_only d; read_only t ];
       data := BufferArray [ [x03]; Buffer_concat hash;
                             Numberu64_toBuffer amount ] |}.
Proof. reflexivity. Qed.

Lemma concat_shareAccess_eq pid u ua r ra d (hash : list Buffer) :
  ConcatInstruction.shareAccess pid u ua r ra d hash =
  Fulfilled
    {| programId := pid;
       keys := [ signer_writable u; writable ua; writable r; writable ra;
                 read_only d ];
       data := Bytes (x04 :: Buffer_concat hash) |}.
Proof.
  unfold ConcatInstruction.shareAccess, new_TransactionInstruction,
    new_PublicKey, return_, async.
  now rewrite Buffer_concat_tagged.
Qed.

Lemma stub_setDataParams_eq a d hash params :
  StubInstruction.setDataParams a d hash params = FulfilledUndefined.
Proof. reflexivity. Qed.

Lemma stub_purchaseAccess_eq u ua ut o ot d t hash amount :
  StubInstruction.purchaseAccess u ua ut o ot d t hash amount
  = FulfilledUndefined.
Proof. reflexivity. Qed.

Lemma stub_shareAccess_eq u ua r ra d hash :
  StubInstruction.shareAccess u ua r ra d hash = FulfilledUndefined.
Proof. reflexivity. Qed.

(** Rewriting of every builder call to its closed form. *)
Ltac closed_forms :=
  cbn [run invoke_src invoke_stub invoke_concat rename_accounts map_call
         set_hash as_buffer_array] in *;
  rewrite ?src_initUserAccountIx_eq, ?src_initDataAccountIx_eq,
    ?src_setDataParams_throws, ?src_purchaseAccess_throws,
    ?src_shareAccess_eq, ?stub_initUserAccountIx_eq,
    ?stub_initDataAccountIx_eq, ?stub_setDataParams_eq,
    ?stub_purchaseAccess_eq, ?stub_shareAccess_eq,
    ?concat_initUserAccountIx_eq, ?concat_initDataAccountIx_eq,
    ?concat_setDataParams_eq, ?concat_purchaseAccess_eq,
    ?concat_shareAccess_eq in *.

(** Case analysis on an invocation that returned the record of [H]. *)
Ltac returned i H :=
  destruct i as [[]|[]|[]]; closed_forms;
  try discriminate H;
  injection H as <-.

(** ** What a returned record carries *)

(** X1. The record returned by any builder of any revision is addressed to
    the program-identifier constant: its [programId] is that constant,
    whatever the other arguments. *)
Theorem program_id_is_constant
  (pid : PublicKey) (i : Invocation) (ix : TransactionInstruction) :
  run pid i = Fulfilled ix -> programId ix = pid.
Proof.
  intro H. returned i H; reflexivity.
Qed.

Lemma program_id_is_constant_witness :
  run (sample_key xaa) sample_purchase = Fulfilled sample_purchase_record /\
  programId sample_purchase_record = sample_key xaa.
Proof.
  split.
  - reflexivity.
  - apply (program_id_is_constant (sample_key xaa) sample_purchase
             sample_purchase_record).
    reflexivity.
Defined.

(** X2. In every returned record the octets of the payload, read in
    order, begin with the opcode of the operation; this includes the
    purchase builder that stores its payload as an array of buffers. *)
Theorem first_octet_is_opcode
  (pid : PublicKey) (i : Invocation) (ix : TransactionInstruction) :
  run pid i = Fulfilled ix ->
  nth_error (payload_octets (data ix)) 0
  = Some (opcode (invoked_operation i)).
Proof.
  intro H. returned i H; try reflexivity.
Qed.

Lemma first_octet_is_opcode_witness :
  run (sample_key xaa) sample_purchase = Fulfilled sample_purchase_record /\
  nth_error (payload_octets (data sample_purchase_record)) 0
  = Some (opcode (invoked_operation sample_purchase)).
Proof.
  split.
  - reflexivity.
  - apply (first_octet_is_opcode (sample_key xaa) sample_purchase
             sample_purchase_record).
    reflexivity.
Defined.

(** X3. No builder looks inside an account identifier or the program
    identifier: renaming every account and changing the program identifier
    leaves the payload as it was, and renames the account list entry by
    entry, flags and order unchanged. *)
Theorem identifiers_not_inspected
  (pid pid' : PublicKey) (f : PublicKey -> PublicKey) (i : Invocation) :
  payload_of (run pid' (rename_accounts f i)) = payload_of (run pid i) /\
  accounts_of (run pid' (rename_accounts f i))
  = option_map (map (rename_meta f)) (accounts_of (run pid i)).
Proof.
  destruct i as [[]|[]|[]]; closed_forms; split; reflexivity.
Qed.

(** X4. The stored payload determines the typed fields it was built from:
    two invocations, of any builders of any revisions and with any
    accounts, that return records with the same [data] name the same
    operation, were given the same account type, and were given the same
    hash octets. *)
Theorem payload_determines_fields
  (pid1 pid2 : PublicKey) (i1 i2 : Invocation)
  (ix1 ix2 : TransactionInstruction) :
  run pid1 i1 = Fulfilled ix1 ->
  run pid2 i2 = Fulfilled ix2 ->
  data ix1 = data ix2 ->
  invoked_operation i1 = invoked_operation i2 /\
  account_type_of i1 = account_type_of i2 /\
  hash_octets i1 = hash_octets i2.
Proof.
  intros H1 H2 Hd.
  returned i1 H1; returned i2 H2;
    cbn [data] in Hd; try discriminate Hd;
    injection Hd as Hd; subst;
    cbn [invoked_operation operation account_type_of call_account_type
           hash_octets call_hash option_map];
    repeat split;
    try reflexivity;
    repeat match goal with
           | t : AccountType |- _ => destruct t
           end;
    try reflexivity; try discriminate; congruence.
Qed.

Lemma payload_determines_fields_witness :
  let i1 :=
    OnSrc (CallShareAccess (sample_key x01) (sample_key x02) (sample_key x03)
             (sample_key x04) (sample_key x05) zero_hash) in
  let i2 :=
    OnConcat
      (CallShareAccess (sample_key x11) (sample_key x12) (sample_key x13)
         (sample_key x14) (sample_key x15)
         [repeat x00 16; repeat x00 16]) in
  exists ix1 ix2,
    run (sample_key xaa) i1 = Fulfilled ix1 /\
    run (sample_key xbb) i2 = Fulfilled ix2 /\
    data ix1 = data ix2 /\
    invoked_operation i1 = invoked_operation i2 /\
    account_type_of i1 = account_type_of i2 /\
    hash_octets i1 = hash_octets i2.
Proof.
  intros i1 i2.
  eexists. eexists.
  split; [reflexivity|]. split; [reflexivity|]. split; [reflexivity|].
  eapply (payload_determines_fields (sample_key xaa) (sample_key xbb) i1 i2);
    reflexivity.
Defined.

(** ** The hash as an array of buffers *)

(** X5. In the array revision the way a hash is cut into buffers cannot be
    seen in the result: two hash arrays with the same octets in order give,
    for every builder and the same other arguments, the same outcome. *)
Theorem hash_segmentation_unobservable
  (pid : PublicKey) (c : Call (list Buffer) Numberu64)
  (hash1 hash2 : list Buffer) :
  Buffer_concat hash1 = Buffer_concat hash2 ->
  invoke_concat pid (set_hash hash1 c) = invoke_concat pid (set_hash hash2 c).
Proof.
  intro H. destruct c; closed_forms; rewrite ?H; reflexivity.
Qed.

Lemma hash_segmentation_unobservable_witness :
  Buffer_concat [[x01]; [x02; x03]] = Buffer_concat [[x01; x02]; []; [x03]] /\
  invoke_concat (sample_key xaa)
    (set_hash [[x01]; [x02; x03]]
       (CallInitDataAccount (sample_key x01) (sample_key x02)
          (sample_key x03) (sample_key x04) ([] : list Buffer)))
  = invoke_concat (sample_key xaa)
      (set_hash [[x01; x02]; []; [x03]]
         (CallInitDataAccount (sample_key x01) (sample_key x02)
            (sample_key x03) (sample_key x04) ([] : list Buffer))).
Proof.
  split.
  - reflexivity.
  - apply (hash_segmentation_unobservable (sample_key xaa)
             (CallInitDataAccount (sample_key x01) (sample_key x02)
                (sample_key x03) (sample_key x04) ([] : list Buffer))
             [[x01]; [x02; x03]] [[x01; x02]; []; [x03]]).
    reflexivity.
Defined.

(** ** Agreement between the revisions *)

(** X6. Wherever a builder of src/js/src/instruction.ts returns a record,
    the builder of the same name in the second document of
    src/js/instruction.ts, given the same accounts and the hash as an array
    holding that one buffer, returns the same record. *)
Theorem src_agrees_with_concat
  (pid : PublicKey) (c : Call Uint8Array number)
  (ix : TransactionInstruction) :
  invoke_src pid c = Fulfilled ix ->
  invoke_concat pid (as_buffer_array c) = Fulfilled ix.
Proof.
  intro H. destruct c; closed_forms; try discriminate H;
    rewrite ?Buffer_concat_single; exact H.
Qed.

Lemma src_agrees_with_concat_witness :
  let c :=
    CallShareAccess (sample_key x01) (sample_key x02) (sample_key x03)
      (sample_key x04) (sample_key x05) zero_hash in
  exists ix,
    invoke_src (sample_key xaa) c = Fulfilled ix /\
    invoke_concat (sample_key xaa) (as_buffer_array c) = Fulfilled ix.
Proof.
  intro c. eexists. split.
  - reflexivity.
  - apply (src_agrees_with_concat (sample_key xaa) c). reflexivity.
Defined.

(** X7. Wherever a builder of the first document of src/js/instruction.ts
    returns a record, the builder of the same name in
    src/js/src/instruction.ts returns the same record on the same
    arguments. *)
Theorem stub_agrees_with_src
  (pid : PublicKey) (c : Call Uint8Array number)
  (ix : TransactionInstruction) :
  invoke_stub pid c = Fulfilled ix -> invoke_src pid c = Fulfilled ix.
Proof.
  intro H. destruct c; closed_forms; try discriminate H; exact H.
Qed.

Lemma stub_agrees_with_src_witness :
  let c :=
    CallInitDataAccount (sample_key x01) (sample_key x02) (sample_key x03)
      (sample_key x04) zero_hash : Call Uint8Array number in
  exists ix,
    invoke_stub (sample_key xaa) c = Fulfilled ix /\
    invoke_src (sample_key xaa) c = Fulfilled ix.
Proof.
  intro c. eexists. split.
  - reflexivity.
  - apply (stub_agrees_with_src (sample_key xaa) c). reflexivity.
Defined.

(** ** Flags *)

(** X8. In every returned account list the writable accounts come first
    and the read-only ones last, the first account is writable, and every
    signer is writable. *)
Theorem writable_accounts_first
  (pid : PublicKey) (i : Invocation) (ix : TransactionInstruction) :
  run pid i = Fulfilled ix ->
  (exists n m,
     map isWritable (keys ix)
     = (repeat true (S n) ++ repeat false m)%list) /\
  Forall (fun a => isSigner a = true -> isWritable a = true) (keys ix).
Proof.
  intro H. returned i H; cbn [keys]; split;
    try (repeat constructor; discriminate);
    first [ exists 2%nat, 1%nat; reflexivity
          | exists 1%nat, 0%nat; reflexivity
          | exists 4%nat, 2%nat; reflexivity
          | exists 3%nat, 1%nat; reflexivity ].
Qed.

Lemma writable_accounts_first_witness :
  run (sample_key xaa) sample_purchase = Fulfilled sample_purchase_record /\
  (exists n m,
     map isWritable (keys sample_purchase_record)
     = (repeat true (S n) ++ repeat false m)%list) /\
  Forall (fun a => isSigner a = true -> isWritable a = true)
    (keys sample_purchase_record).
Proof.
  split.
  - reflexivity.
  - apply (writable_accounts_first (sample_key xaa) sample_purchase
             sample_purchase_record).
    reflexivity.
Defined.

(** * Invocations against a heap *)

(** ** Old and new references *)

Lemma nth_error_old (h l : Heap) (r : Ref) (o : Object) :
  nth_error h r = Some o -> nth_error (h ++ l) r = Some o.
Proof.
  intro H. rewrite nth_error_app1; [exact H|].
  apply nth_error_Some. congruence.
Qed.

Lemma nth_error_fresh (h l : Heap) (k : nat) :
  nth_error (h ++ l) (List.length h + k) = nth_error l k.
Proof.
  rewrite nth_error_app2 by lia. f_equal. lia.
Qed.

Lemma nth_error_fresh0 (h l : Heap) :
  nth_error (h ++ l) (List.length h) = nth_error l 0.
Proof.
  rewrite <- (nth_error_fresh h l 0). now rewrite Nat.add_0_r.
Qed.

Lemma key_at_inv h r k :
  key_at h r = Some k -> nth_error h r = Some (PublicKeyObject k).
Proof.
  unfold key_at. destruct (nth_error h r) as [[]|]; congruence.
Qed.

Lemma hash_at_inv h r b :
  hash_at h r = Some b -> nth_error h r = Some (OctetsObject b).
Proof.
  unfold hash_at. destruct (nth_error h r) as [[]|]; congruence.
Qed.

Lemma all_some_octets (h l : Heap) (rs : list Ref) (bs : list Buffer) :
  all_some (map (hash_at h) rs) = Some bs ->
  map (octets_at (h ++ l)%list) rs = bs.
Proof.
  revert bs. induction rs as [|r rs IH]; intros bs H; simpl in *.
  - injection H as <-. reflexivity.
  - destruct (hash_at h r) as [b|] eqn:Hb; [|discriminate].
    destruct (all_some (map (hash_at h) rs)) as [bs'|]; [|discriminate].
    injection H as <-.
    unfold octets_at at 1.
    rewrite (nth_error_old h l r _ (hash_at_inv _ _ _ Hb)).
    now rewrite (IH bs').
Qed.

Lemma hash_array_at_inv h r bs :
  hash_array_at h r = Some bs ->
  exists rs, nth_error h r = Some (ArrayObject rs) /\
             all_some (map (hash_at h) rs) = Some bs.
Proof.
  unfold hash_array_at. destruct (nth_error h r) as [[]|]; try discriminate.
  intro H. eexists. split; [reflexivity|exact H].
Qed.

Ltac heap_norm :=
  repeat first
    [ rewrite <- app_assoc
    | rewrite length_app
    | rewrite <- Nat.add_assoc
    | progress cbn [app List.length Nat.add]
    | rewrite nth_error_fresh
    | rewrite nth_error_fresh0
    | progress cbn [nth_error]
    | match goal with
      | H : nth_error ?h ?r = Some ?o |- _ =>
          rewrite (nth_error_old h _ r o H)
      end ].


Lemma hash_array_concat (h l : Heap) (r : Ref) (bs : list Buffer) :
  hash_array_at h r = Some bs ->
  map (octets_at (h ++ l)%list) (elements_at (h ++ l)%list r) = bs.
Proof.
  intro H. apply hash_array_at_inv in H as [rs [Hr Hs]].
  unfold elements_at. rewrite (nth_error_old h l r _ Hr).
  now apply all_some_octets.
Qed.

Lemma hash_octets_old (h l : Heap) (r : Ref) (b : Uint8Array) :
  hash_at h r = Some b -> octets_at (h ++ l)%list r = b.
Proof.
  intro H. unfold octets_at.
  now rewrite (nth_error_old h l r _ (hash_at_inv _ _ _ H)).
Qed.

Lemma octets_at_fresh (h l : Heap) (k : nat) :
  octets_at (h ++ l)%list (List.length h + k)%nat = octets_at l k.
Proof. unfold octets_at. now rewrite nth_error_fresh. Qed.

Lemma octets_at_fresh0 (h l : Heap) :
  octets_at (h ++ l)%list (List.length h) = octets_at l 0%nat.
Proof. unfold octets_at. now rewrite nth_error_fresh0. Qed.

Lemma elements_at_fresh (h l : Heap) (k : nat) :
  elements_at (h ++ l)%list (List.length h + k)%nat = elements_at l k.
Proof. unfold elements_at. now rewrite nth_error_fresh. Qed.

Ltac heap_eval :=
  cbv beta iota delta
    [async_at bind_run allocate lift new_PublicKey_at keys_of array_of
       Uint8Array_of_at Buffer_from_at Buffer_concat_at spread_at
       Numberu64_toBuffer_at new_TransactionInstruction_at unit_run
       observe fst snd];
  repeat first
    [ progress heap_norm
    | match goal with
      | H : hash_at ?h ?r = Some ?b |- _ =>
          rewrite (hash_octets_old h _ r b H)
      | H : hash_array_at ?h ?r = Some ?bs |- _ =>
          rewrite (hash_array_concat h _ r bs H)
      end
    | progress unfold instruction_at, key_at, keys_at, data_at, entry_at
    | rewrite octets_at_fresh
    | rewrite octets_at_fresh0
    | rewrite elements_at_fresh
    | progress cbn [octets_at elements_at nth_error]
    | rewrite Uint8Array_of_tagged
    | rewrite Buffer_concat_tagged
    | progress cbn [map all_some entry entry_pubkey entry_isSigner
                      entry_isWritable async spread_Uint8Array
                      spread_number identifier] ].

(** The arguments a call resolves to, one key at a time. *)
Ltac resolve_arguments H :=
  cbn [arguments arguments_of map all_some option_map] in H;
  repeat match type of H with
         | context [key_at ?h ?r] =>
             let E := fresh "Hkey" in
             destruct (key_at h r) eqn:E; [|discriminate H]
         | context [hash_at ?h ?r] =>
             let E := fresh "Hhash" in
             destruct (hash_at h r) eqn:E; [|discriminate H]
         | context [hash_array_at ?h ?r] =>
             let E := fresh "Hhash" in
             destruct (hash_array_at h r) eqn:E; [|discriminate H]
         end;
  injection H as <-;
  repeat match goal with
         | E : key_at _ _ = Some _ |- _ => apply key_at_inv in E
         end.

(** Run against a heap in which the arguments are what [args] says, a
    builder settles as the builder on contents does on [args], and the
    instruction it returns has the contents that builder returns. *)
Lemma run_at_refines (pid : PublicKey) (i : RefInvocation) (h : Heap)
  (args : Invocation) :
  arguments h i = Some args ->
  observe (run_at pid i h) = settled (run pid args).
Proof.
  intro H.
  destruct i as [[]|[]|[]]; resolve_arguments H;
    cbn [run_at invoke_src_at invoke_stub_at invoke_concat_at];
    unfold SrcAllocating.initUserAccountIx, SrcAllocating.initDataAccountIx,
      SrcAllocating.setDataParams, SrcAllocating.purchaseAccess,
      SrcAllocating.shareAccess,
      StubAllocating.initUserAccountIx, StubAllocating.initDataAccountIx,
      StubAllocating.setDataParams, StubAllocating.purchaseAccess,
      StubAllocating.shareAccess,
      ConcatAllocating.initUserAccountIx, ConcatAllocating.initDataAccountIx,
      ConcatAllocating.setDataParams, ConcatAllocating.purchaseAccess,
      ConcatAllocating.shareAccess;
    heap_eval; closed_forms; cbn [settled]; reflexivity.
Qed.

(** ** Determinism *)

(** C7. Two invocations of the same builder with the same argument
    references and the same program identifier, run against any two heaps
    in which those references lead to the same keys and the same hash
    octets, settle the same way, and when they return instructions these
    have the same program identifier, the same account list (identifiers,
    flags, order) and the same payload octets. In particular this holds
    of a second invocation run in the heap the first one left. *)
Theorem builders_deterministic
  (pid : PublicKey) (i : RefInvocation) (h1 h2 : Heap) (args : Invocation) :
  arguments h1 i = Some args ->
  arguments h2 i = Some args ->
  observe (run_at pid i h1) = observe (run_at pid i h2).
Proof.
  intros H1 H2.
  rewrite (run_at_refines pid i h1 args H1).
  rewrite (run_at_refines pid i h2 args H2).
  reflexivity.
Qed.

Lemma builders_deterministic_witness :
  let first := run_at (sample_key xaa) sample_purchase_at sample_heap in
  let second := run_at (sample_key xaa) sample_purchase_at (snd first) in
  arguments sample_heap sample_purchase_at = Some sample_purchase /\
  arguments (snd first) sample_purchase_at = Some sample_purchase /\
  fst first = Fulfilled 17%nat /\
  fst second = Fulfilled 25%nat /\
  observe first = Fulfilled (Some sample_purchase_record) /\
  observe first = observe second.
Proof.
  intros first second.
  split; [reflexivity|]. split; [reflexivity|].
  split; [reflexivity|]. split; [reflexivity|].
  split; [reflexivity|].
  apply (builders_deterministic (sample_key xaa) sample_purchase_at
           sample_heap (snd first) sample_purchase); reflexivity.
Defined.

(** ** Allocation only *)

